(** * Container bootstrap and health probe of DouK-Downloader

    A shallow embedding of [docker_entry.py], [healthcheck.py] and the port
    selection of [api_main.py], with the properties of the persistent state
    they maintain.

    Conventions of the embedding:
    - a Python [str] is a list of Unicode code points;
    - a Python call that may raise returns a [result]; [try ... except
      Exception] is [try_except];
    - the file system, the process environment and the network are explicit
      arguments. *)

From Stdlib Require Import ZArith QArith Ascii String.
From stdpp Require Import base option list gmap pretty.

Set Warnings "-register-all".
Open Scope Z_scope.

(** ** Python values *)

Module Py.

(** [str]: code points, so that lone surrogates (which [json.load] produces
    from an escape such as \ud800) are representable. *)
Abbreviation str := (list N).

(** A literal of the source, written in ASCII. *)
Definition py (s : string) : str :=
  List.map N_of_ascii (list_ascii_of_string s).

(** The exceptions the three scripts can meet; all derive from [Exception]. *)
Inductive exn :=
  | ValueError
  | UnicodeDecodeError
  | UnicodeEncodeError
  | JSONDecodeError
  | FileNotFoundError
  | FileExistsError
  | IsADirectoryError
  | DatabaseError
  | OperationalError
  | IntegrityError
  | URLError
  | HTTPError (code : Z)
  | TimeoutError.

Inductive result (A : Type) :=
  | Ok (a : A)
  | Raise (e : exn).
Arguments Ok {A} a.
Arguments Raise {A} e.

Definition bind {A B} (m : result A) (k : A -> result B) : result B :=
  match m with
  | Ok a => k a
  | Raise e => Raise e
  end.

(** [try: body / except Exception: handler]. *)
Definition try_except {A} (body : result A) (handler : exn -> result A)
  : result A :=
  match body with
  | Ok a => Ok a
  | Raise e => handler e
  end.

Definition returns {A} (m : result A) : Prop := exists a, m = Ok a.

(** [float]: the value [float(s)] denotes, kept as an exact reduced
    fraction; the rounding to binary64 is not modelled (the scripts only
    hand the value on). *)
Inductive pyfloat :=
  | FNan
  | FInf (negative : bool)
  | FDec (q : Q).

(** What [os.getenv(name, default)] returns: a [str] from the environment,
    or the default, whose type the caller chooses. *)
Inductive str_or_int :=
  | PStr (s : str)
  | PInt (n : Z).

End Py.
Export Py.

Declare Scope py_scope.
Delimit Scope py_scope with py.
Notation "'do' x <- m ; k" := (bind m (fun x => k))
  (at level 10, x name, m at level 100, k at level 200,
   format "'[v' 'do'  x  <-  m ; '/' k ']'") : py_scope.
Open Scope py_scope.

(** ** JSON documents *)

Module Json.

(** The values [json.load] builds. An object is a [dict]: its items in
    insertion order. *)
Inductive json :=
  | JNull
  | JBool (b : bool)
  | JInt (n : Z)
  | JFloat (f : pyfloat)
  | JString (s : str)
  | JArray (items : list json)
  | JObject (items : list (str * json)).

Abbreviation dict := (list (str * json)).

(** [d[k]] as [d.get(k)]. *)
Fixpoint dict_get (k : str) (d : dict) : option json :=
  match d with
  | [] => None
  | (k', v') :: d' => if decide (k' = k) then Some v' else dict_get k d'
  end.

(** [d[k] = v]: an existing key keeps its place, a new one goes last. *)
Fixpoint dict_set (k : str) (v : json) (d : dict) : dict :=
  match d with
  | [] => [(k, v)]
  | (k', v') :: d' =>
      if decide (k' = k) then (k', v) :: d' else (k', v') :: dict_set k v d'
  end.

Definition isinstance_dict (v : json) : bool :=
  match v with JObject _ => true | _ => false end.

(** UTF-8 encodes every code point but the surrogates U+D800..U+DFFF. *)
Definition is_surrogate (c : N) : bool :=
  ((55296 <=? c) && (c <=? 57343))%N.

Definition str_encodable (s : str) : bool :=
  forallb (fun c => negb (is_surrogate c)) s.

(** Whether the text [json.dump(v, f, ensure_ascii=False)] produces can be
    written to a file opened with [encoding="utf-8"]: with
    [ensure_ascii=False] strings are written as they are, not escaped. *)
Fixpoint utf8_encodable (v : json) : bool :=
  match v with
  | JString s => str_encodable s
  | JArray items => forallb utf8_encodable items
  | JObject items =>
      forallb (fun kv => str_encodable (fst kv) && utf8_encodable (snd kv))
        items
  | _ => true
  end.

End Json.
Export Json.

(** ** The persistent volume

    The state is what the paths name and what the files hold. Failures of
    the device itself (permissions, a full disk) are outside the model: a
    file that can be opened for writing is written. *)

Module Store.

(** What a path names. *)
Inductive entry (F : Type) :=
  | Missing
  | Directory
  | File (content : F).
Arguments Missing {F}.
Arguments Directory {F}.
Arguments File {F} content.

(** [settings.json], seen through [json.load]: the bytes are not UTF-8, or
    the text is not JSON, or it is the JSON text of [v]. That loading what
    [json.dump] wrote gives the dumped value back is the library's contract
    and is built into [Json]. *)
Inductive text :=
  | NotUtf8
  | NotJson
  | Json (v : json).

(** A table with a TEXT PRIMARY KEY is a finite map from the key to the
    other columns; [None] is a table that does not exist yet. Tables that
    exist were created by the DDL of [init_database], which never alters
    them. The hidden rowid, which VACUUM may renumber, is not part of the
    state of a table. *)
Record database := {
  config_data : option (gmap str Z);            (* NAME -> VALUE *)
  download_data : option (gset str);            (* ID *)
  mapping_data : option (gmap str (str * str)); (* ID -> NAME, MARK *)
  option_data : option (gmap str str)           (* NAME -> VALUE *)
}.

(** [DouK-Downloader.db]. *)
Inductive dbfile :=
  | NotADatabase
  | Database (d : database).

Record Volume := {
  settings_json : entry text;
  db_file : entry dbfile
}.

(** What [/app/Volume] names. *)
Inductive filesystem :=
  | NoVolume
  | VolumeIsFile
  | VolumeDir (v : Volume).

(** [Path.exists], [Path.open("r")], [Path.open("w")]. *)
Definition exists_ {F} (p : entry F) : bool :=
  match p with Missing => false | _ => true end.

Definition open_r {F} (p : entry F) : result F :=
  match p with
  | Missing => Raise FileNotFoundError
  | Directory => Raise IsADirectoryError
  | File c => Ok c
  end.

Definition open_w {F} (p : entry F) : result unit :=
  match p with
  | Directory => Raise IsADirectoryError
  | _ => Ok tt
  end.

Definition json_load (f : text) : result json :=
  match f with
  | NotUtf8 => Raise UnicodeDecodeError
  | NotJson => Raise JSONDecodeError
  | Json v => Ok v
  end.

(** [json.dump(v, f, ensure_ascii=False, indent=4)] into a UTF-8 file. *)
Definition json_dump (v : json) : result text :=
  if utf8_encodable v then Ok (Json v) else Raise UnicodeEncodeError.

(** The persisted settings document, read key by key. *)
Definition setting (k : str) (volume : Volume) : option json :=
  match settings_json volume with
  | File (Json (JObject d)) => dict_get k d
  | _ => None
  end.

End Store.
Export Store.

(** ** sqlite3 *)

Module Sqlite.

(** [sqlite3.connect(path)] and the first statement on the connection: a
    missing file is created as an empty database. *)
Definition connect (p : entry dbfile) : result database :=
  match p with
  | Missing =>
      Ok {| config_data := None; download_data := None;
            mapping_data := None; option_data := None |}
  | Directory => Raise OperationalError
  | File NotADatabase => Raise DatabaseError
  | File (Database d) => Ok d
  end.

(** CREATE TABLE IF NOT EXISTS. *)
Definition create_table_if_not_exists {T} `{Empty T} (t : option T)
  : option T :=
  match t with
  | Some rows => Some rows
  | None => Some ∅
  end.

(** INSERT OR IGNORE INTO t (NAME, VALUE) VALUES (name, value): a row that
    breaks the CHECK constraint or whose key is taken is skipped. *)
Definition insert_or_ignore {V} (check : V -> bool) (name : str) (value : V)
    (rows : gmap str V) : result (gmap str V) :=
  if check value then
    match rows !! name with
    | Some _ => Ok rows
    | None => Ok (<[name := value]> rows)
    end
  else Ok rows.

(** INSERT OR REPLACE INTO t (NAME, VALUE) VALUES (name, value): a row with
    the same key is deleted first; a CHECK violation aborts the statement. *)
Definition insert_or_replace {V} (check : V -> bool) (name : str) (value : V)
    (rows : gmap str V) : result (gmap str V) :=
  if check value then Ok (<[name := value]> rows)
  else Raise IntegrityError.

(** CHECK(VALUE IN (0, 1)) of config_data; option_data has none. *)
Definition config_check (value : Z) : bool := (value =? 0) || (value =? 1).
Definition option_check (value : str) : bool := true.

(** A statement on one table of the connection; the table must exist. *)
Definition on_config_data (stmt : gmap str Z -> result (gmap str Z))
    (d : database) : result database :=
  match config_data d with
  | None => Raise OperationalError
  | Some rows =>
      do rows' <- stmt rows;
      Ok {| config_data := Some rows'; download_data := download_data d;
            mapping_data := mapping_data d; option_data := option_data d |}
  end.

Definition on_option_data (stmt : gmap str str -> result (gmap str str))
    (d : database) : result database :=
  match option_data d with
  | None => Raise OperationalError
  | Some rows =>
      do rows' <- stmt rows;
      Ok {| config_data := config_data d; download_data := download_data d;
            mapping_data := mapping_data d; option_data := Some rows' |}
  end.

End Sqlite.
Export Sqlite.

(** ** docker_entry.py *)

Module DockerEntry.

Definition ensure_volume (fs : filesystem) : result Volume :=
  match fs with
  | NoVolume => Ok {| settings_json := Missing; db_file := Missing |}
  | VolumeIsFile => Raise FileExistsError
  | VolumeDir vol => Ok vol
  end.

Definition init_settings (volume : Volume) : result Volume :=
  let settings_path := settings_json volume in
  do data <-
    try_except
      (if exists_ settings_path then
         do f <- open_r settings_path;
         do data <- json_load f;
         match data with
         | JObject d => Ok d
         | _ => Ok []
         end
       else Ok [])
      (fun _ => Ok []);
  let data := dict_set (py "run_command") (JString (py "7")) data in
  do _ <- open_w settings_path;
  do f <- json_dump (JObject data);
  Ok {| settings_json := File f; db_file := db_file volume |}.

(** The four CREATE TABLE IF NOT EXISTS statements of the script. *)
Definition executescript (d : database) : database :=
  {| config_data := create_table_if_not_exists (config_data d);
     download_data := create_table_if_not_exists (download_data d);
     mapping_data := create_table_if_not_exists (mapping_data d);
     option_data := create_table_if_not_exists (option_data d) |}.

Definition init_database (volume : Volume) : result Volume :=
  let db_path := db_file volume in
  do conn <- connect db_path;
  let cur := executescript conn in
  do cur <- on_config_data (insert_or_ignore config_check (py "Record") 1) cur;
  do cur <- on_config_data (insert_or_ignore config_check (py "Logger") 0) cur;
  do cur <-
    on_config_data (insert_or_replace config_check (py "Disclaimer") 1) cur;
  do cur <-
    on_option_data
      (insert_or_ignore option_check (py "Language") (py "zh_CN")) cur;
  do cur <-
    on_option_data
      (insert_or_replace option_check (py "Language") (py "zh_CN")) cur;
  Ok {| settings_json := settings_json volume;
        db_file := File (Database cur) |}.

(** The process image [os.execvp(file, args)] asks for. *)
Record exec_call := {
  exec_file : str;
  exec_args : list str
}.

(** [os.execvp]: [on_path] tells which program names the PATH resolves. *)
Definition execvp (on_path : str -> bool) (file : str) (args : list str)
  : result exec_call :=
  if on_path file then Ok {| exec_file := file; exec_args := args |}
  else Raise FileNotFoundError.

(** [main] does not return: its result is the volume it leaves and the
    image that replaces the process. *)
Definition main (on_path : str -> bool) (fs : filesystem)
  : result (filesystem * exec_call) :=
  do vol <- ensure_volume fs;
  do vol <- init_settings vol;
  do vol <- init_database vol;
  do image <- execvp on_path (py "python") [py "python"; py "api_main.py"];
  Ok (VolumeDir vol, image).

(** The three steps before the hand-off, as one function on the file
    system. *)
Definition bootstrap (fs : filesystem) : result filesystem :=
  do vol <- ensure_volume fs;
  do vol <- init_settings vol;
  do vol <- init_database vol;
  Ok (VolumeDir vol).

End DockerEntry.

(** ** Builtins: [str], [int], [float], [os.getenv] *)

Module Builtins.

Local Open Scope N_scope.

(** [str.isspace], the set [str.strip] removes. *)
Definition isspace (c : N) : bool :=
  ((9 <=? c) && (c <=? 13)) || ((28 <=? c) && (c <=? 32))
  || (c =? 133) || (c =? 160) || (c =? 5760)
  || ((8192 <=? c) && (c <=? 8202))
  || (c =? 8232) || (c =? 8233) || (c =? 8239) || (c =? 8287)
  || (c =? 12288).

(** The zero of each block of ten decimal digits (Unicode 14, category Nd). *)
Definition decimal_zeros : list N :=
  [48; 1632; 1776; 1984; 2406; 2534; 2662; 2790; 2918; 3046; 3174; 3302;
   3430; 3558; 3664; 3792; 3872; 4160; 4240; 6112; 6160; 6470; 6608; 6784;
   6800; 6992; 7088; 7232; 7248; 42528; 43216; 43264; 43472; 43504; 43600;
   44016; 65296; 66720; 68912; 69734; 69872; 69942; 70096; 70384; 70736;
   70864; 71248; 71360; 71472; 71904; 72016; 72784; 73040; 73120; 92768;
   92864; 93008; 120782; 120792; 120802; 120812; 120822; 123200; 123632;
   125264; 130032].

Definition decimal_of (c : N) : option N :=
  match List.find (fun z => (z <=? c) && (c <? z + 10)) decimal_zeros with
  | Some z => Some (c - z)
  | None => None
  end.

(** Before parsing a number, [int] and [float] turn every non-ASCII space
    into a blank and every non-ASCII decimal digit into its ASCII digit; any
    other non-ASCII character becomes a question mark, which no number
    contains. *)
Definition to_ascii_number_char (c : N) : N :=
  if c <? 127 then c
  else if isspace c then 32
  else match decimal_of c with
       | Some d => 48 + d
       | None => 63
       end.

(** The blanks a number may be wrapped in, once in ASCII. *)
Definition is_c_space (c : N) : bool :=
  ((9 <=? c) && (c <=? 13)) || (c =? 32).

Definition is_digit (c : N) : bool := (48 <=? c) && (c <=? 57).

Fixpoint lstrip_with (drop : N -> bool) (s : str) : str :=
  match s with
  | [] => []
  | c :: s' => if drop c then lstrip_with drop s' else s
  end.

Definition rstrip_with (drop : N -> bool) (s : str) : str :=
  rev (lstrip_with drop (rev s)).

Definition strip_with (drop : N -> bool) (s : str) : str :=
  lstrip_with drop (rstrip_with drop s).

(** [s.strip()]. *)
Definition strip : str -> str := strip_with isspace.

(** A run of digits in which single underscores may separate digits: its
    value after [acc], the number of digits read, and what follows. *)
Fixpoint scan_digits (acc : Z) (count : nat) (after_digit : bool) (s : str)
  : Z * nat * str :=
  match s with
  | [] => (acc, count, [])
  | c :: s' =>
      if is_digit c then
        scan_digits (10 * acc + Z.of_N (c - 48))%Z (S count) true s'
      else if (c =? 95) && after_digit
              && match s' with c' :: _ => is_digit c' | [] => false end
      then scan_digits acc count false s'
      else (acc, count, s)
  end.

(** An optional sign. *)
Definition scan_sign (s : str) : bool * str :=
  match s with
  | 43 :: s' => (false, s')
  | 45 :: s' => (true, s')
  | _ => (false, s)
  end.

Definition ascii_lower (c : N) : N :=
  if (65 <=? c) && (c <=? 90) then c + 32 else c.

Local Open Scope Z_scope.

(** [int(s)] for a string, base ten. (The limit CPython 3.11 puts on the
    number of digits is not modelled.) *)
Definition int_of_str (s : str) : result Z :=
  let s := strip_with is_c_space (List.map to_ascii_number_char s) in
  let '(negative, body) := scan_sign s in
  match scan_digits 0 0 false body with
  | (value, S _, []) => Ok (if negative then - value else value)
  | _ => Raise ValueError
  end.

(** The exponent part of a float literal: absent, or e, a sign, digits. *)
Definition scan_exponent (s : str) : option Z :=
  match s with
  | [] => Some 0
  | c :: s' =>
      if (c =? 101)%N || (c =? 69)%N then
        let '(negative, body) := scan_sign s' in
        match scan_digits 0 0 false body with
        | (value, S _, []) => Some (if negative then - value else value)
        | _ => None
        end
      else None
  end.

(** [float(s)] for a string. *)
Definition float_of_str (s : str) : result pyfloat :=
  let s := strip_with is_c_space (List.map to_ascii_number_char s) in
  let '(negative, body) := scan_sign s in
  let word := List.map ascii_lower body in
  if decide (word = py "inf" \/ word = py "infinity") then Ok (FInf negative)
  else if decide (word = py "nan") then Ok FNan
  else
    let '(int_part, int_digits, rest) := scan_digits 0 0 false body in
    let '(mantissa, frac_digits, rest) :=
      match rest with
      | 46%N :: rest' => scan_digits int_part 0 false rest'
      | _ => (int_part, 0%nat, rest)
      end in
    match (int_digits + frac_digits)%nat, scan_exponent rest with
    | S _, Some exponent =>
        let magnitude :=
          (inject_Z mantissa
           * Qpower (10 # 1) (exponent - Z.of_nat frac_digits))%Q in
        Ok (FDec (Qred (if negative then (- magnitude)%Q else magnitude)))
    | _, _ => Raise ValueError
    end.

(** [int(x)] and [float(x)] for what [os.getenv] returns. *)
Definition py_int (x : str_or_int) : result Z :=
  match x with
  | PInt n => Ok n
  | PStr s => int_of_str s
  end.

Definition py_float (x : str_or_int) : result pyfloat :=
  match x with
  | PInt n => Ok (FDec (inject_Z n))
  | PStr s => float_of_str s
  end.

(** [os.getenv(key, default)]. *)
Definition getenv (environ : gmap str str) (key : str) (default : str_or_int)
  : str_or_int :=
  match environ !! key with
  | Some value => PStr value
  | None => default
  end.

End Builtins.
Export Builtins.

(** ** urllib.request *)

Module Urllib.

Local Open Scope N_scope.

(** [urllib.parse.unwrap]: strips blanks, angle brackets and a "URL:"
    prefix. *)
Definition unwrap (url : str) : str :=
  let url := strip url in
  let url :=
    if decide (take 1 url = py "<"
               /\ drop (length url - 1)%nat url = py ">")
    then strip (drop 1 (take (length url - 1)%nat url))
    else url in
  if decide (take 4 url = py "URL:") then strip (drop 4 url) else url.

(** [s.rpartition(sep)] when [sep] occurs: what is before and after its
    last occurrence. *)
Fixpoint rpartition (sep : N) (s : str) : option (str * str) :=
  match s with
  | [] => None
  | c :: s' =>
      match rpartition sep s' with
      | Some (head, tail) => Some (c :: head, tail)
      | None => if c =? sep then Some ([], s') else None
      end
  end.

(** [s.partition(sep)[0]] and what follows [sep], when [sep] occurs. *)
Fixpoint partition (sep : N) (s : str) : option (str * str) :=
  match s with
  | [] => None
  | c :: s' =>
      if c =? sep then Some ([], s')
      else match partition sep s' with
           | Some (head, tail) => Some (c :: head, tail)
           | None => None
           end
  end.

Definition splittag (url : str) : str * option str :=
  match rpartition 35 url with
  | Some (path, tag) => (path, Some tag)
  | None => (url, None)
  end.

(** The match of the pattern of [_splittype] at the start of [url]: one or
    more characters other than a slash and a colon, then a colon, then
    anything. *)
Fixpoint typeprog_match (url : str) : option (str * str) :=
  match url with
  | [] => None
  | c :: url' =>
      if c =? 58 then Some ([], url')
      else if c =? 47 then None
      else match typeprog_match url' with
           | Some (scheme, data) => Some (c :: scheme, data)
           | None => None
           end
  end.

(** [_splittype]: the scheme (which the library lowercases; nothing here
    reads it) and the rest, or no scheme. *)
Definition splittype (url : str) : option str * str :=
  match typeprog_match url with
  | Some (c :: scheme, data) => (Some (c :: scheme), data)
  | _ => (None, url)
  end.

Definition is_ascii_alpha (c : N) : bool :=
  ((65 <=? c) && (c <=? 90)) || ((97 <=? c) && (c <=? 122)).

(** [scheme_chars] of urllib.parse. *)
Definition is_scheme_char (c : N) : bool :=
  is_ascii_alpha c || is_digit c || (c =? 43) || (c =? 45) || (c =? 46).

Definition contains (c : N) (s : str) : bool := existsb (N.eqb c) s.

(** [s] up to the first character that satisfies [stop]. *)
Fixpoint before_first (stop : N -> bool) (s : str) : str :=
  match s with
  | [] => []
  | c :: s' => if stop c then [] else c :: before_first stop s'
  end.

(** The network location [urlsplit] finds in [url]. *)
Definition netloc_of (url : str) : str :=
  let url := lstrip_with (fun c => c <=? 32) url in
  let url :=
    List.filter (fun c => negb ((c =? 9) || (c =? 13) || (c =? 10))) url in
  let url :=
    match partition 58 url with
    | Some (c :: scheme, rest) =>
        if is_ascii_alpha c && forallb is_scheme_char (c :: scheme)
        then rest else url
    | _ => url
    end in
  match url with
  | 47 :: 47 :: rest =>
      before_first (fun c => (c =? 47) || (c =? 63) || (c =? 35)) rest
  | _ => []
  end.

(** The checks of [urlsplit] that raise. Only the test for an unmatched
    square bracket is modelled: the validation of a bracketed host and of
    non-ASCII characters, which reject further URLs, are left out. *)
Definition urlsplit_check (url : str) : result unit :=
  let netloc := netloc_of url in
  if (contains 91 netloc && negb (contains 93 netloc))
     || (contains 93 netloc && negb (contains 91 netloc))
  then Raise ValueError
  else Ok tt.

Record request := {
  _full_url : str;
  fragment : option str;
  headers : list (str * str)
}.

(** The [full_url] property. *)
Definition full_url (path : str) (fragment : option str) : str :=
  match fragment with
  | Some (c :: tag) => path ++ py "#" ++ c :: tag
  | _ => path
  end.

(** [Request(url, headers=headers)]: the setter of [full_url], with the
    check of [_parse], then [request_host], which parses the URL again. *)
Definition Request (url : str) (headers : list (str * str))
  : result request :=
  let '(path, tag) := splittag (unwrap url) in
  match fst (splittype path) with
  | None => Raise ValueError
  | Some _ =>
      do _ <- urlsplit_check (full_url path tag);
      Ok {| _full_url := path; fragment := tag; headers := headers |}
  end.

Record response := {
  status : Z
}.

(** [urlopen(req, timeout=timeout)]: what the network answers, or the
    exception it raises (URLError, HTTPError for a 4xx or 5xx status,
    TimeoutError, ValueError for a timeout that is no duration, ...). *)
Definition network := request -> pyfloat -> result response.

End Urllib.
Export Urllib.

(** ** healthcheck.py *)

Module HealthCheck.

Definition check (urlopen : network) (url : str) (timeout : pyfloat)
  : result Z :=
  do req <- Request url [(py "Accept", py "application/json")];
  try_except
    (do resp <- urlopen req timeout;
     Ok (if status resp =? 200 then 0 else 1)%Z)
    (fun _ => Ok 1%Z).

(** The port and the timeout [main] reads from the environment. *)
Definition port_of (environ : gmap str str) : str_or_int :=
  getenv environ (py "PORT") (PStr (py "5555")).

Definition timeout_of (environ : gmap str str) : result pyfloat :=
  let timeout_env :=
    getenv environ (py "HEALTHCHECK_TIMEOUT") (PStr (py "2")) in
  try_except (py_float timeout_env) (fun _ => Ok (FDec (2 # 1))).

(** What an f-string puts for a value. *)
Definition format_value (x : str_or_int) : str :=
  match x with
  | PStr s => s
  | PInt n => py (pretty.pretty n)
  end.

(** [main]: the status [sys.exit] ends the process with. *)
Definition main (environ : gmap str str) (urlopen : network) : result Z :=
  let port := port_of environ in
  let url := py "http://localhost:" ++ format_value port ++ py "/health" in
  do timeout <- timeout_of environ;
  do code <- check urlopen url timeout;
  Ok code.

End HealthCheck.

(** ** api_main.py *)

Module ApiMain.

(** The port [start_api_only] hands to [run_server]. [SERVER_PORT] is the
    integer constant of [src.custom]; the application context and the
    server are collaborators outside these files. *)
Definition start_api_only (SERVER_PORT : Z) (environ : gmap str str)
  : result Z :=
  do port <- py_int (getenv environ (py "PORT") (PInt SERVER_PORT));
  Ok port.

End ApiMain.

(** ** What is observed of the persistent state, and sample states *)

Module Observe.

Import DockerEntry.

(** A settings file that gives no prior settings: absent, not UTF-8, not
    JSON, or JSON that is not an object. *)
Definition no_prior_settings (p : entry text) : bool :=
  match p with
  | Missing | File NotUtf8 | File NotJson => true
  | File (Json v) => negb (isinstance_dict v)
  | Directory => false
  end.

(** The dictionary a settings file gives [init_settings] to start from. *)
Definition prior_settings (p : entry text) : dict :=
  match p with
  | File (Json (JObject d)) => d
  | _ => []
  end.

(** The document [init_settings] writes when it starts from [d]. *)
Definition forced (d : dict) : dict :=
  dict_set (py "run_command") (JString (py "7")) d.

(** The row [name] of config_data and of option_data in the stored
    database. *)
Definition config_row (name : str) (volume : Volume) : option Z :=
  match db_file volume with
  | File (Database d) => rows ← config_data d; rows !! name
  | _ => None
  end.

Definition option_row (name : str) (volume : Volume) : option str :=
  match db_file volume with
  | File (Database d) => rows ← option_data d; rows !! name
  | _ => None
  end.

(** A row put in only when its key is free, and the tables after the seed
    statements of [init_database]. *)
Definition if_absent {V} (name : str) (value : V) (rows : gmap str V)
  : gmap str V :=
  match rows !! name with
  | Some _ => rows
  | None => <[name := value]> rows
  end.

Definition seed_config (rows : gmap str Z) : gmap str Z :=
  <[py "Disclaimer" := 1]>
    (if_absent (py "Logger") 0 (if_absent (py "Record") 1 rows)).

Definition seed_option (rows : gmap str str) : gmap str str :=
  <[py "Language" := py "zh_CN"]>
    (if_absent (py "Language") (py "zh_CN") rows).

Definition seeded (conn : database) : database :=
  {| config_data := Some (seed_config (default ∅ (config_data conn)));
     download_data := Some (default ∅ (download_data conn));
     mapping_data := Some (default ∅ (mapping_data conn));
     option_data := Some (seed_option (default ∅ (option_data conn))) |}.


(** Lines 96 and 97 of [init_database] on a connection, and line 97
    alone. *)
Definition seed_language_pair (cur : database) : result database :=
  do cur <-
    on_option_data
      (insert_or_ignore option_check (py "Language") (py "zh_CN")) cur;
  on_option_data
    (insert_or_replace option_check (py "Language") (py "zh_CN")) cur.

Definition seed_language_replace (cur : database) : result database :=
  on_option_data
    (insert_or_replace option_check (py "Language") (py "zh_CN")) cur.

(** [init_database] without its line 96. *)
Definition init_database_replace_only (volume : Volume) : result Volume :=
  let db_path := db_file volume in
  do conn <- connect db_path;
  let cur := executescript conn in
  do cur <- on_config_data (insert_or_ignore config_check (py "Record") 1) cur;
  do cur <- on_config_data (insert_or_ignore config_check (py "Logger") 0) cur;
  do cur <-
    on_config_data (insert_or_replace config_check (py "Disclaimer") 1) cur;
  do cur <-
    on_option_data
      (insert_or_replace option_check (py "Language") (py "zh_CN")) cur;
  Ok {| settings_json := settings_json volume;
        db_file := File (Database cur) |}.

(** Sample states. *)
Definition fresh_volume : Volume :=
  {| settings_json := Missing; db_file := Missing |}.

(** A volume a user has edited: an unrelated key, another run mode, logging
    switched on, the disclaimer declined, another language. *)
Definition edited_volume : Volume :=
  {| settings_json :=
       File (Json (JObject [(py "foo", JString (py "bar"));
                            (py "run_command", JString (py "5"))]));
     db_file :=
       File (Database
         {| config_data :=
              Some {[ py "Record" := 0; py "Logger" := 1;
                      py "Disclaimer" := 0 ]};
            download_data := Some {[ py "7412" ]};
            mapping_data := Some ∅;
            option_data := Some {[ py "Language" := py "en_US" ]} |}) |}.

Definition corrupt_volume : Volume :=
  {| settings_json := File NotJson; db_file := Missing |}.

(** A settings document with a lone surrogate, as [json.load] builds from
    the escape \ud800. *)
Definition surrogate_volume : Volume :=
  {| settings_json := File (Json (JObject [(py "note", JString [55296%N])]));
     db_file := Missing |}.

Definition everything_on_path (file : str) : bool := true.

(** Environments: a port that is no number, a port that is an unmatched
    bracket, a timeout that is no number. *)
Definition word_port_environ : gmap str str := {[ py "PORT" := py "abc" ]}.

Definition bracket_port_environ : gmap str str := {[ py "PORT" := py "[" ]}.

Definition word_timeout_environ : gmap str str :=
  {[ py "HEALTHCHECK_TIMEOUT" := py "soon" ]}.

(** A service that answers every request with 200. *)
Definition healthy_network : network :=
  fun _ _ => Ok {| status := 200 |}.

End Observe.
Export Observe.

(** ** Further observations *)

Module Rows.

Import DockerEntry.

(** The keys of a document, in the order [json.dump] writes them. *)
Definition keys (d : dict) : list str := List.map fst d.

(** The ids in download_data and the rows of mapping_data in the stored
    database; none when the table or the database does not exist. *)
Definition download_ids (volume : Volume) : gset str :=
  match db_file volume with
  | File (Database d) => default ∅ (download_data d)
  | _ => ∅
  end.

Definition mapping_rows (volume : Volume) : gmap str (str * str) :=
  match db_file volume with
  | File (Database d) => default ∅ (mapping_data d)
  | _ => ∅
  end.

(** Whether the four tables exist in the stored database. *)
Definition has_tables (volume : Volume) : bool :=
  match db_file volume with
  | File (Database d) =>
      bool_decide (is_Some (config_data d))
      && bool_decide (is_Some (download_data d))
      && bool_decide (is_Some (mapping_data d))
      && bool_decide (is_Some (option_data d))
  | _ => false
  end.

(** The URL [HealthCheck.main] probes and the header it sends. *)
Definition probe_url (environ : gmap str str) : str :=
  py "http://localhost:"
  ++ HealthCheck.format_value (HealthCheck.port_of environ) ++ py "/health".

Definition probe_headers : list (str * str) :=
  [(py "Accept", py "application/json")].

(** A port that is plain ASCII without a square bracket. *)
Definition plain_port (port : str) : bool :=
  forallb (fun c => (c <? 128)%N && negb (c =? 91)%N && negb (c =? 93)%N)
    port.

(** Sample states: a document that already holds the forced value, and an
    environment with a usable port and a timeout that is no number. *)
Definition settled_volume : Volume :=
  {| settings_json :=
       File (Json (JObject [(py "run_command", JString (py "7"));
                            (py "foo", JString (py "bar"))]));
     db_file := Missing |}.

Definition port_and_word_timeout_environ : gmap str str :=
  {[ py "PORT" := py "8080"; py "HEALTHCHECK_TIMEOUT" := py "soon" ]}.

End Rows.
Export Rows.

(** ** What a run leaves behind, also when it raises

    [result] forgets the volume when a call raises. The definitions below
    follow the same source lines and keep, beside the way the call ended,
    the volume it left. *)

Module OnDisk.

Import DockerEntry.

(** [init_settings]. [open("w")] empties the file and [json.dump] writes
    the text piece by piece: when a piece cannot be encoded, the file keeps
    the pieces before it, the beginning of an object, which is no JSON. *)
Definition init_settings_on_disk (volume : Volume) : Volume * result unit :=
  let settings_path := settings_json volume in
  match
    try_except
      (if exists_ settings_path then
         do f <- open_r settings_path;
         do data <- json_load f;
         match data with
         | JObject d => Ok d
         | _ => Ok []
         end
       else Ok [])
      (fun _ => Ok [])
  with
  | Raise e => (volume, Raise e)
  | Ok data =>
      let data := dict_set (py "run_command") (JString (py "7")) data in
      match open_w settings_path with
      | Raise e => (volume, Raise e)
      | Ok _ =>
          match json_dump (JObject data) with
          | Ok f =>
              ({| settings_json := File f; db_file := db_file volume |},
               Ok tt)
          | Raise e =>
              ({| settings_json := File NotJson;
                  db_file := db_file volume |},
               Raise e)
          end
      end
  end.

(** The five INSERT statements of [init_database]. *)
Definition seed_statements (cur : database) : result database :=
  do cur <- on_config_data (insert_or_ignore config_check (py "Record") 1) cur;
  do cur <- on_config_data (insert_or_ignore config_check (py "Logger") 0) cur;
  do cur <-
    on_config_data (insert_or_replace config_check (py "Disclaimer") 1) cur;
  do cur <-
    on_option_data
      (insert_or_ignore option_check (py "Language") (py "zh_CN")) cur;
  on_option_data
    (insert_or_replace option_check (py "Language") (py "zh_CN")) cur.

(** [init_database]. A path that cannot be opened as a database is left as
    it is. [executescript] runs outside a transaction, so the tables it
    creates stay; the rows of the INSERT statements are kept only by the
    commit at the end. *)
Definition init_database_on_disk (volume : Volume) : Volume * result unit :=
  match connect (db_file volume) with
  | Raise e => (volume, Raise e)
  | Ok conn =>
      let cur := executescript conn in
      match seed_statements cur with
      | Ok cur' =>
          ({| settings_json := settings_json volume;
              db_file := File (Database cur') |},
           Ok tt)
      | Raise e =>
          ({| settings_json := settings_json volume;
              db_file := File (Database cur) |},
           Raise e)
      end
  end.

(** The three steps of [main] before the hand-off: a step that raises ends
    the run, and what the steps before it wrote stays. *)
Definition bootstrap_on_disk (fs : filesystem) : filesystem * result unit :=
  match ensure_volume fs with
  | Raise e => (fs, Raise e)
  | Ok vol =>
      match init_settings_on_disk vol with
      | (vol, Raise e) => (VolumeDir vol, Raise e)
      | (vol, Ok _) =>
          match init_database_on_disk vol with
          | (vol, ending) => (VolumeDir vol, ending)
          end
      end
  end.

(** A settings document with an unrelated key and a string that holds a
    lone surrogate, as [json.load] builds from the escape \ud800. *)
Definition noted_volume : Volume :=
  {| settings_json :=
       File (Json (JObject [(py "foo", JString (py "bar"));
                            (py "note", JString [55296%N])]));
     db_file := Missing |}.

End OnDisk.
Export OnDisk.

(** * Properties *)

(** ** Exceptions *)

Lemma bind_Ok {A B} (m : result A) (k : A -> result B) (b : B) :
  bind m k = Ok b -> exists a, m = Ok a /\ k a = Ok b.
Proof. destruct m as [a|e]; simpl; [eauto | discriminate]. Qed.

Lemma try_except_returns {A} (body : result A) (a : A) :
  returns (try_except body (fun _ => Ok a)).
Proof. destruct body as [a'|e]; simpl; [exists a' | exists a]; reflexivity. Qed.

(** Splits a hypothesis [do x <- m; k = Ok b] into its two steps. *)
Ltac bind_inv H :=
  let a := fresh "a" in
  let Ha := fresh "Hstep" in
  apply bind_Ok in H; destruct H as (a & Ha & H).

(** ** Python dictionaries *)

Section Dict.

Implicit Types (k : str) (v : json) (d : dict).

Lemma dict_get_set_eq k v d : dict_get k (dict_set k v d) = Some v.
Proof.
  induction d as [|[k' v'] d IH]; simpl.
  - rewrite decide_True; reflexivity.
  - destruct (decide (k' = k)) as [->|Hne]; simpl.
    + rewrite decide_True; reflexivity.
    + rewrite decide_False; assumption.
Qed.

Lemma dict_get_set_ne k k' v d :
  k <> k' -> dict_get k' (dict_set k v d) = dict_get k' d.
Proof.
  intros Hne. induction d as [|[k0 v0] d IH]; simpl.
  - rewrite decide_False; [reflexivity | assumption].
  - destruct (decide (k0 = k)) as [->|Hk0]; simpl.
    + rewrite !decide_False; [reflexivity | assumption | assumption].
    + rewrite IH. reflexivity.
Qed.

Lemma dict_set_idempotent k v d :
  dict_set k v (dict_set k v d) = dict_set k v d.
Proof.
  induction d as [|[k' v'] d IH]; simpl.
  - rewrite decide_True; reflexivity.
  - destruct (decide (k' = k)) as [->|Hne]; simpl.
    + rewrite decide_True; reflexivity.
    + rewrite decide_False by assumption. rewrite IH. reflexivity.
Qed.

End Dict.

(** ** init_settings *)

Section Settings.

Import DockerEntry.

Lemma init_settings_spec volume :
  init_settings volume =
  match settings_json volume with
  | Directory => Raise IsADirectoryError
  | _ =>
      let data := forced (prior_settings (settings_json volume)) in
      if utf8_encodable (JObject data)
      then Ok {| settings_json := File (Json (JObject data));
                 db_file := db_file volume |}
      else Raise UnicodeEncodeError
  end.
Proof.
  unfold init_settings, forced. destruct volume as [p db]; simpl.
  destruct p as [| |[| |v]]; simpl; try reflexivity.
  destruct v as [| | | | | |d]; simpl; try reflexivity.
  unfold json_dump. change (forallb _ ?l) with (utf8_encodable (JObject l)).
  destruct (utf8_encodable _); reflexivity.
Qed.

Lemma init_settings_Ok volume volume' :
  init_settings volume = Ok volume' ->
  let data := forced (prior_settings (settings_json volume)) in
  utf8_encodable (JObject data) = true
  /\ volume' =
     {| settings_json := File (Json (JObject data));
        db_file := db_file volume |}.
Proof.
  rewrite init_settings_spec.
  destruct (settings_json volume) as [| |c]; [|done|].
  all: cbv zeta; destruct (utf8_encodable _) eqn:E; [|done].
  all: intros [= <-]; split; reflexivity.
Qed.

Lemma forced_encodable d :
  utf8_encodable (JObject d) = true ->
  utf8_encodable (JObject (forced d)) = true.
Proof.
  unfold forced. simpl.
  induction d as [|[k v] d IH]; simpl; [reflexivity|].
  intros H. apply andb_prop in H as [Hkv Hd].
  apply andb_prop in Hkv as [Hk Hv].
  destruct (decide (k = py "run_command")) as [->|Hne]; simpl.
  - rewrite Hd. reflexivity.
  - rewrite Hk, Hv, (IH Hd). reflexivity.
Qed.

(** [init_settings] completes unless a directory sits in the place of the
    file or the prior document holds a string UTF-8 cannot encode. *)
Lemma init_settings_returns volume :
  settings_json volume <> Directory ->
  utf8_encodable (JObject (prior_settings (settings_json volume))) = true ->
  returns (init_settings volume).
Proof.
  intros Hdir Henc. rewrite init_settings_spec.
  destruct (settings_json volume) as [| |c]; [|done|];
    cbv zeta; rewrite (forced_encodable _ Henc); eexists; reflexivity.
Qed.

(** C1. Whatever the settings file held before (nothing, text that does not
    parse, a document with any value under the key), once [init_settings]
    has completed the persisted document maps [run_command] to the string
    7. *)
Theorem init_settings_forces_run_command volume volume' :
  init_settings volume = Ok volume' ->
  setting (py "run_command") volume' = Some (JString (py "7")).
Proof.
  intros H. apply init_settings_Ok in H as [_ ->].
  unfold setting, forced; simpl. apply dict_get_set_eq.
Qed.

Lemma init_settings_forces_run_command_witness :
  setting (py "run_command") edited_volume = Some (JString (py "5"))
  /\ exists volume',
       init_settings edited_volume = Ok volume'
       /\ setting (py "run_command") volume' = Some (JString (py "7")).
Proof.
  split; [reflexivity|].
  eexists. split; [reflexivity|].
  apply (init_settings_forces_run_command edited_volume). reflexivity.
Defined.

(** C3. When the settings file parses as a JSON object and [init_settings]
    completes, every key other than [run_command] maps to what it mapped to
    before; so a prior foo: bar is still there. *)
Theorem init_settings_preserves_other_keys volume volume' d k :
  settings_json volume = File (Json (JObject d)) ->
  init_settings volume = Ok volume' ->
  k <> py "run_command" ->
  setting k volume' = setting k volume.
Proof.
  intros Hd H Hk. apply init_settings_Ok in H as [_ ->].
  unfold setting, forced; simpl. rewrite Hd; simpl.
  apply dict_get_set_ne. congruence.
Qed.

Lemma init_settings_preserves_other_keys_witness :
  setting (py "foo") edited_volume = Some (JString (py "bar"))
  /\ exists volume',
       init_settings edited_volume = Ok volume'
       /\ setting (py "foo") volume' = Some (JString (py "bar")).
Proof.
  split; [reflexivity|].
  eexists. split; [reflexivity|].
  rewrite (init_settings_preserves_other_keys edited_volume _ _ (py "foo")
             eq_refl eq_refl); [reflexivity | discriminate].
Defined.

(** C4. When the settings file is absent, is not UTF-8, is not JSON, or
    holds JSON that is not an object, [init_settings] does not raise: it
    starts from the empty dictionary and persists the object whose only key
    is [run_command]. *)
Theorem init_settings_recovers volume :
  no_prior_settings (settings_json volume) = true ->
  init_settings volume =
  Ok {| settings_json :=
          File (Json (JObject [(py "run_command", JString (py "7"))]));
        db_file := db_file volume |}.
Proof.
  intros H. rewrite init_settings_spec.
  destruct (settings_json volume) as [| |[| |v]]; try done.
  destruct v; done.
Qed.

Lemma init_settings_recovers_witness :
  no_prior_settings (settings_json corrupt_volume) = true
  /\ init_settings corrupt_volume =
     Ok {| settings_json :=
             File (Json (JObject [(py "run_command", JString (py "7"))]));
           db_file := Missing |}.
Proof.
  split; [reflexivity|].
  apply (init_settings_recovers corrupt_volume). reflexivity.
Defined.

(** A document with a string that UTF-8 cannot encode makes the dump
    raise: completion is a real condition in C1 and C3. *)
Example init_settings_surrogate :
  init_settings surrogate_volume = Raise UnicodeEncodeError.
Proof. reflexivity. Qed.

End Settings.

(** ** init_database *)

Section Database.

Import DockerEntry.

Lemma insert_or_ignore_Ok {V} (check : V -> bool) (name : str)
    (value : V) (rows : gmap str V) :
  check value = true ->
  insert_or_ignore check name value rows = Ok (if_absent name value rows).
Proof.
  intros H. unfold insert_or_ignore, if_absent. rewrite H.
  destruct (rows !! name); reflexivity.
Qed.

Lemma insert_or_replace_Ok {V} (check : V -> bool) (name : str)
    (value : V) (rows : gmap str V) :
  check value = true ->
  insert_or_replace check name value rows = Ok (<[name := value]> rows).
Proof. intros H. unfold insert_or_replace. rewrite H. reflexivity. Qed.

Lemma create_table_default {T} `{Empty T} (t : option T) :
  create_table_if_not_exists t = Some (default ∅ t).
Proof. destruct t; reflexivity. Qed.

(** [init_database] in closed form. *)
Lemma init_database_spec volume :
  init_database volume =
  do conn <- connect (db_file volume);
  Ok {| settings_json := settings_json volume;
        db_file := File (Database (seeded conn)) |}.
Proof.
  unfold init_database.
  destruct (connect (db_file volume)) as [conn|e]; [|reflexivity].
  cbn [bind]. unfold executescript, on_config_data, on_option_data.
  rewrite !create_table_default. cbn [config_data option_data].
  repeat first
    [ rewrite insert_or_ignore_Ok by reflexivity
    | rewrite insert_or_replace_Ok by reflexivity
    | progress cbn [bind config_data option_data download_data mapping_data] ].
  reflexivity.
Qed.

Lemma init_database_Ok volume volume' :
  init_database volume = Ok volume' ->
  exists conn,
    connect (db_file volume) = Ok conn
    /\ volume' = {| settings_json := settings_json volume;
                    db_file := File (Database (seeded conn)) |}.
Proof.
  rewrite init_database_spec. intros H. bind_inv H.
  exists a. split; congruence.
Qed.

(** The statements never fail on a database this script made: only a file
    that is no database, or a directory in its place, stops it. *)
Lemma init_database_returns volume :
  db_file volume <> Directory ->
  db_file volume <> File NotADatabase ->
  returns (init_database volume).
Proof.
  intros Hdir Hdb. rewrite init_database_spec.
  destruct (db_file volume) as [| |[|d]]; try done; eexists; reflexivity.
Qed.

Lemma connect_config_row volume conn name :
  connect (db_file volume) = Ok conn ->
  default ∅ (config_data conn) !! name = config_row name volume.
Proof.
  unfold config_row.
  destruct (db_file volume) as [| |[|d]]; simpl; intros [= <-]; simpl.
  - apply lookup_empty.
  - destruct (config_data d); simpl; [reflexivity | apply lookup_empty].
Qed.

Lemma lookup_if_absent {V} (k k' : str) (v : V) (rows : gmap str V) :
  if_absent k v rows !! k' =
  if decide (k = k') then Some (default v (rows !! k)) else rows !! k'.
Proof.
  unfold if_absent. destruct (decide (k = k')) as [<-|Hne].
  - destruct (rows !! k) eqn:E; simpl; [assumption | apply lookup_insert_eq].
  - destruct (rows !! k) eqn:E; [reflexivity | by apply lookup_insert_ne].
Qed.

(** Two literals of the source that differ. *)
Ltac py_neq := let H := fresh in intros H; vm_compute in H; discriminate H.

Lemma seed_config_forced rows : seed_config rows !! py "Disclaimer" = Some 1.
Proof. apply lookup_insert_eq. Qed.

Lemma seed_option_forced rows :
  seed_option rows !! py "Language" = Some (py "zh_CN").
Proof. apply lookup_insert_eq. Qed.

Lemma seed_config_record rows :
  seed_config rows !! py "Record" = Some (default 1 (rows !! py "Record")).
Proof.
  unfold seed_config. rewrite lookup_insert_ne by py_neq.
  rewrite lookup_if_absent, decide_False by py_neq.
  rewrite lookup_if_absent, decide_True by reflexivity. reflexivity.
Qed.

Lemma seed_config_logger rows :
  seed_config rows !! py "Logger" = Some (default 0 (rows !! py "Logger")).
Proof.
  unfold seed_config. rewrite lookup_insert_ne by py_neq.
  rewrite lookup_if_absent, decide_True by reflexivity.
  rewrite lookup_if_absent, decide_False by py_neq. reflexivity.
Qed.

Lemma if_absent_present {V} (k : str) (v : V) (rows : gmap str V) :
  is_Some (rows !! k) -> if_absent k v rows = rows.
Proof. intros [x Hx]. unfold if_absent. rewrite Hx. reflexivity. Qed.

Lemma insert_if_absent {V} (k : str) (v : V) (rows : gmap str V) :
  <[k := v]> (if_absent k v rows) = <[k := v]> rows.
Proof.
  unfold if_absent. destruct (rows !! k); [reflexivity|].
  apply insert_insert_eq.
Qed.

Lemma seed_config_idempotent rows :
  seed_config (seed_config rows) = seed_config rows.
Proof.
  unfold seed_config at 1.
  rewrite (if_absent_present (py "Record"))
    by (rewrite seed_config_record; eauto).
  rewrite (if_absent_present (py "Logger"))
    by (rewrite seed_config_logger; eauto).
  unfold seed_config. apply insert_insert_eq.
Qed.

Lemma seed_option_idempotent rows :
  seed_option (seed_option rows) = seed_option rows.
Proof.
  unfold seed_option. rewrite !insert_if_absent. apply insert_insert_eq.
Qed.

Lemma seeded_idempotent conn : seeded (seeded conn) = seeded conn.
Proof.
  unfold seeded; simpl.
  rewrite seed_config_idempotent, seed_option_idempotent. reflexivity.
Qed.

(** C5. Whatever the database held before, once [init_database] has
    completed the config row Disclaimer holds 1 and the option row Language
    holds zh_CN. *)
Theorem init_database_forces_rows volume volume' :
  init_database volume = Ok volume' ->
  config_row (py "Disclaimer") volume' = Some 1
  /\ option_row (py "Language") volume' = Some (py "zh_CN").
Proof.
  intros H. apply init_database_Ok in H as (conn & _ & ->).
  unfold config_row, option_row; simpl.
  split; [apply seed_config_forced | apply seed_option_forced].
Qed.

Lemma init_database_forces_rows_witness :
  config_row (py "Disclaimer") edited_volume = Some 0
  /\ option_row (py "Language") edited_volume = Some (py "en_US")
  /\ exists volume',
       init_database edited_volume = Ok volume'
       /\ config_row (py "Disclaimer") volume' = Some 1
       /\ option_row (py "Language") volume' = Some (py "zh_CN").
Proof.
  split; [vm_compute; reflexivity|]. split; [vm_compute; reflexivity|].
  eexists. split; [vm_compute; reflexivity|].
  apply (init_database_forces_rows edited_volume). vm_compute; reflexivity.
Defined.

(** C6. For the rows Record (default 1) and Logger (default 0): once
    [init_database] has completed, a row that existed holds the value it
    held, and a row that did not exist holds the default. *)
Theorem init_database_keeps_defaults volume volume' name preset :
  (name = py "Record" /\ preset = 1) \/ (name = py "Logger" /\ preset = 0) ->
  init_database volume = Ok volume' ->
  config_row name volume' = Some (default preset (config_row name volume)).
Proof.
  intros Hrow H. apply init_database_Ok in H as (conn & Hconn & ->).
  rewrite <- (connect_config_row _ _ name Hconn).
  unfold config_row at 1; simpl.
  destruct Hrow as [[-> ->]|[-> ->]];
    [apply seed_config_record | apply seed_config_logger].
Qed.

Lemma init_database_keeps_defaults_witness :
  (config_row (py "Logger") edited_volume = Some 1
   /\ exists volume',
        init_database edited_volume = Ok volume'
        /\ config_row (py "Logger") volume' = Some 1)
  /\ (config_row (py "Record") fresh_volume = None
      /\ exists volume',
           init_database fresh_volume = Ok volume'
           /\ config_row (py "Record") volume' = Some 1).
Proof.
  split; (split; [vm_compute; reflexivity|]).
  - eexists. split; [vm_compute; reflexivity|].
    apply (init_database_keeps_defaults edited_volume _ (py "Logger") 0);
      [right; split; reflexivity | vm_compute; reflexivity].
  - eexists. split; [vm_compute; reflexivity|].
    apply (init_database_keeps_defaults fresh_volume _ (py "Record") 1);
      [left; split; reflexivity | vm_compute; reflexivity].
Defined.

(** C10. On every connection, INSERT OR IGNORE of Language followed by
    INSERT OR REPLACE of Language leaves what INSERT OR REPLACE alone
    leaves (and fails when it fails). *)
Theorem language_seed_pair_redundant cur :
  seed_language_pair cur = seed_language_replace cur.
Proof.
  unfold seed_language_pair, seed_language_replace, on_option_data.
  destruct (option_data cur) as [rows|]; [|reflexivity].
  rewrite insert_or_ignore_Ok by reflexivity. cbn [bind option_data].
  rewrite !insert_or_replace_Ok by reflexivity. cbn [bind].
  rewrite insert_if_absent. reflexivity.
Qed.

(** So the script without its line 96 is the same function. *)
Corollary init_database_without_ignore volume :
  init_database volume = init_database_replace_only volume.
Proof.
  rewrite init_database_spec. unfold init_database_replace_only.
  destruct (connect (db_file volume)) as [conn|e]; [|reflexivity].
  cbn [bind]. unfold executescript, on_config_data, on_option_data.
  rewrite !create_table_default. cbn [config_data option_data].
  repeat first
    [ rewrite insert_or_ignore_Ok by reflexivity
    | rewrite insert_or_replace_Ok by reflexivity
    | progress cbn [bind config_data option_data download_data mapping_data] ].
  unfold seeded, seed_option. rewrite insert_if_absent. reflexivity.
Qed.

End Database.

(** ** The bootstrap sequence and the hand-off *)

Section Bootstrap.

Import DockerEntry.

Lemma prior_settings_forced d :
  forced (prior_settings (File (Json (JObject (forced d))))) = forced d.
Proof. simpl. unfold forced. apply dict_set_idempotent. Qed.

(** A volume that [init_settings] and [init_database] have both left is a
    fixed point of each. *)
Lemma init_settings_fixed volume volume' db :
  init_settings volume = Ok volume' ->
  init_settings {| settings_json := settings_json volume'; db_file := db |}
  = Ok {| settings_json := settings_json volume'; db_file := db |}.
Proof.
  intros H. apply init_settings_Ok in H as [Henc ->].
  rewrite init_settings_spec. cbn [settings_json db_file]. cbv zeta.
  rewrite prior_settings_forced, Henc. reflexivity.
Qed.

Lemma init_database_fixed volume volume' p :
  init_database volume = Ok volume' ->
  init_database {| settings_json := p; db_file := db_file volume' |}
  = Ok {| settings_json := p; db_file := db_file volume' |}.
Proof.
  intros H. apply init_database_Ok in H as (conn & _ & ->).
  rewrite init_database_spec. cbn [settings_json db_file connect bind].
  rewrite seeded_idempotent. reflexivity.
Qed.



(** The bootstrap completes on a fresh mount and on every volume whose
    two files are a settings document that can be written back and a
    database. *)
Lemma bootstrap_returns fs :
  match fs with
  | NoVolume => True
  | VolumeIsFile => False
  | VolumeDir v =>
      settings_json v <> Directory
      /\ utf8_encodable (JObject (prior_settings (settings_json v))) = true
      /\ db_file v <> Directory
      /\ db_file v <> File NotADatabase
  end ->
  returns (bootstrap fs).
Proof.
  unfold bootstrap. destruct fs as [| |v]; [intros _| done |].
  - eexists. vm_compute. reflexivity.
  - intros (Hs & Henc & Hd & Hdb). cbn [ensure_volume bind].
    destruct (init_settings_returns v Hs Henc) as [v1 E1].
    rewrite E1. cbn [bind].
    apply init_settings_Ok in E1 as [_ ->].
    destruct (init_database_returns
                {| settings_json := File (Json (JObject
                     (forced (prior_settings (settings_json v)))));
                   db_file := db_file v |} Hd Hdb) as [v2 E2].
    rewrite E2. eexists. reflexivity.
Qed.

(** [main] is the bootstrap followed by the hand-off. *)
Lemma main_bootstrap on_path fs :
  main on_path fs =
  do fs' <- bootstrap fs;
  do image <- execvp on_path (py "python") [py "python"; py "api_main.py"];
  Ok (fs', image).
Proof.
  unfold main, bootstrap.
  destruct (ensure_volume fs) as [v0|]; [|reflexivity]. cbn [bind].
  destruct (init_settings v0) as [v1|]; [|reflexivity]. cbn [bind].
  destruct (init_database v1) as [v2|]; reflexivity.
Qed.

(** C9, as the code has it. When the three steps have succeeded and the
    PATH resolves python, [main] replaces the process by python with the
    argument vector python, api_main.py: the program name and the fixed
    script, and nothing taken from the bootstrap's own arguments or
    state. *)
Theorem main_hands_off on_path fs fs' :
  bootstrap fs = Ok fs' ->
  on_path (py "python") = true ->
  main on_path fs =
  Ok (fs', {| exec_file := py "python";
              exec_args := [py "python"; py "api_main.py"] |}).
Proof.
  intros H Hpath. rewrite main_bootstrap, H. cbn [bind].
  unfold execvp. rewrite Hpath. reflexivity.
Qed.

Lemma main_hands_off_witness :
  exists fs',
    bootstrap NoVolume = Ok fs'
    /\ main everything_on_path NoVolume =
       Ok (fs', {| exec_file := py "python";
                   exec_args := [py "python"; py "api_main.py"] |}).
Proof.
  eexists. split; [vm_compute; reflexivity|].
  apply (main_hands_off everything_on_path NoVolume);
    [vm_compute; reflexivity | reflexivity].
Defined.

(** C9, as stated, fails: the argument vector is not the program name
    alone. *)
Lemma main_argv_counterexample :
  ~ (forall fs' image,
       main everything_on_path NoVolume = Ok (fs', image) ->
       exec_args image = [exec_file image]).
Proof.
  intros H.
  destruct (main everything_on_path NoVolume) as [[fs' image]|e] eqn:E.
  - specialize (H fs' image eq_refl).
    rewrite (main_bootstrap everything_on_path NoVolume) in E.
    vm_compute in E. injection E as <- <-. discriminate H.
  - rewrite (main_bootstrap everything_on_path NoVolume) in E.
    vm_compute in E. discriminate E.
Qed.

End Bootstrap.

(** ** The health probe *)

Section Probe.

Import HealthCheck.

(** Once the request object exists, [check] is total: 0 for a response
    with status 200, 1 for any other response and for any exception of
    [urlopen]. *)
Lemma check_after_request urlopen url timeout req :
  Request url [(py "Accept", py "application/json")] = Ok req ->
  check urlopen url timeout =
  Ok (match urlopen req timeout with
      | Ok resp => if status resp =? 200 then 0 else 1
      | Raise _ => 1
      end).
Proof.
  intros H. unfold check. rewrite H. cbn [bind].
  destruct (urlopen req timeout) as [resp|e]; reflexivity.
Qed.

Lemma check_zero_iff_200 urlopen url timeout req :
  Request url [(py "Accept", py "application/json")] = Ok req ->
  exists code,
    check urlopen url timeout = Ok code
    /\ (code = 0 \/ code = 1)
    /\ (code = 0 <->
        exists resp, urlopen req timeout = Ok resp /\ status resp = 200).
Proof.
  intros H. rewrite (check_after_request _ _ _ _ H).
  eexists. split; [reflexivity|].
  destruct (urlopen req timeout) as [resp|e].
  - destruct (Z.eqb_spec (status resp) 200) as [E|E].
    + split; [left; reflexivity|]. split; [eauto | reflexivity].
    + split; [right; reflexivity|]. split; [discriminate|].
      intros (resp' & [= <-] & E'). contradiction.
  - split; [right; reflexivity|]. split; [discriminate|].
    intros (resp' & [=] & _).
Qed.

(** C7 fails on the code: the request object is built before the [try],
    and for every URL in which [_splittype] finds no scheme its constructor
    raises ValueError, which [check] lets through whatever the network and
    the timeout. *)
Theorem check_raises_without_scheme urlopen url timeout :
  fst (splittype (fst (splittag (unwrap url)))) = None ->
  check urlopen url timeout = Raise ValueError.
Proof.
  intros H. unfold check, Request.
  destruct (splittag (unwrap url)) as [path tag]. simpl in H.
  rewrite H. reflexivity.
Qed.

Lemma check_raises_without_scheme_witness :
  check healthy_network (py "localhost/health") (FDec (2 # 1))
  = Raise ValueError.
Proof.
  apply (check_raises_without_scheme healthy_network (py "localhost/health")).
  reflexivity.
Defined.

(** The script itself reaches that: with PORT set to an opening bracket the
    URL it builds is refused by the constructor, and [main] ends on the
    exception instead of on [sys.exit]. *)
Lemma main_raises_on_bracket_port urlopen :
  main bracket_port_environ urlopen = Raise ValueError.
Proof. reflexivity. Qed.

Example main_healthy : main ∅ healthy_network = Ok 0.
Proof. reflexivity. Qed.

End Probe.

(** ** The environment overrides *)

Section Environment.

Lemma timeout_of_returns (environ : gmap str str) :
  returns (HealthCheck.timeout_of environ).
Proof. apply try_except_returns. Qed.

(** C8, as the code has it. An unset PORT gives the default to both
    readers, the string 5555 to the health check and [SERVER_PORT] to the
    server, and the server's read returns; an unset HEALTHCHECK_TIMEOUT, or
    one that [float] rejects, gives the timeout 2.0 and the read returns.
    (Nothing is said of a PORT that is set.) *)
Theorem env_overrides_fall_back (SERVER_PORT : Z) (environ : gmap str str) :
  (environ !! py "PORT" = None ->
   HealthCheck.port_of environ = PStr (py "5555")
   /\ ApiMain.start_api_only SERVER_PORT environ = Ok SERVER_PORT)
  /\ (environ !! py "HEALTHCHECK_TIMEOUT" = None
      \/ (exists s e, environ !! py "HEALTHCHECK_TIMEOUT" = Some s
                      /\ float_of_str s = Raise e) ->
      HealthCheck.timeout_of environ = Ok (FDec (2 # 1))).
Proof.
  split.
  - intros H. unfold HealthCheck.port_of, ApiMain.start_api_only, getenv.
    rewrite H. split; reflexivity.
  - unfold HealthCheck.timeout_of, getenv.
    intros [H|(s & e & H & Hs)]; rewrite H; simpl.
    + reflexivity.
    + rewrite Hs. reflexivity.
Qed.

Lemma env_overrides_fall_back_witness :
  HealthCheck.port_of word_timeout_environ = PStr (py "5555")
  /\ ApiMain.start_api_only 5555 word_timeout_environ = Ok 5555
  /\ HealthCheck.timeout_of word_timeout_environ = Ok (FDec (2 # 1))
  /\ HealthCheck.timeout_of ∅ = Ok (FDec (2 # 1)).
Proof.
  destruct (env_overrides_fall_back 5555 word_timeout_environ) as [Hp Ht].
  destruct (env_overrides_fall_back 5555 ∅) as [_ Ht'].
  destruct (Hp ltac:(reflexivity)) as [Hp1 Hp2].
  split; [exact Hp1|]. split; [exact Hp2|]. split.
  - apply Ht. right. exists (py "soon"), ValueError.
    split; reflexivity.
  - apply Ht'. left. reflexivity.
Defined.

(** C8, as stated, fails for the port: a PORT that is no number is not
    replaced by the default. The health check keeps it as it is, and the
    server's [int] raises. *)
Lemma port_override_counterexample :
  ~ (word_port_environ !! py "PORT" = None
     \/ (exists s e, word_port_environ !! py "PORT" = Some s
                     /\ int_of_str s = Raise e) ->
     HealthCheck.port_of word_port_environ = PStr (py "5555")
     /\ ApiMain.start_api_only 5555 word_port_environ = Ok 5555).
Proof.
  intros H.
  destruct H as [H _].
  - right. exists (py "abc"), ValueError. split; reflexivity.
  - vm_compute in H. discriminate H.
Qed.

Example word_port_aborts_server :
  ApiMain.start_api_only 5555 word_port_environ = Raise ValueError.
Proof. reflexivity. Qed.

Example word_port_kept_by_probe :
  HealthCheck.port_of word_port_environ = PStr (py "abc").
Proof. reflexivity. Qed.

End Environment.

(** * Further properties *)

(** ** init_settings on its own *)

Section SettingsMore.

Import DockerEntry.

Lemma dict_set_keys k v d :
  keys (dict_set k v d)
  = if decide (k ∈ keys d) then keys d else keys d ++ [k].
Proof.
  unfold keys. induction d as [|[k' v'] d IH]; cbn [dict_set List.map fst].
  - rewrite decide_False; [reflexivity | apply not_elem_of_nil].
  - destruct (decide (k' = k)) as [->|Hne]; cbn [List.map fst].
    + rewrite decide_True; [reflexivity | apply list_elem_of_here].
    + rewrite IH. destruct (decide (k ∈ List.map fst d)) as [Hin|Hnin].
      * rewrite decide_True; [reflexivity | by apply list_elem_of_further].
      * rewrite decide_False; [reflexivity|].
        intros Hin. apply elem_of_cons in Hin as [->|Hin]; contradiction.
Qed.

Lemma dict_set_same k v d : dict_get k d = Some v -> dict_set k v d = d.
Proof.
  induction d as [|[k' v'] d IH]; simpl; [discriminate|].
  destruct (decide (k' = k)) as [->|Hne].
  - intros [= ->]. reflexivity.
  - intros H. rewrite (IH H). reflexivity.
Qed.

(** X1. [init_settings] keeps the keys of an object in their order: the
    document it writes has the same keys in the same places when
    [run_command] was among them, and the same keys followed by
    [run_command] when it was not. *)
Theorem init_settings_keeps_key_order volume volume' d :
  settings_json volume = File (Json (JObject d)) ->
  init_settings volume = Ok volume' ->
  exists d',
    settings_json volume' = File (Json (JObject d'))
    /\ keys d' =
       if decide (py "run_command" ∈ keys d) then keys d
       else keys d ++ [py "run_command"].
Proof.
  intros Hd H. apply init_settings_Ok in H as [_ ->]. rewrite Hd.
  eexists. split; [reflexivity|]. apply dict_set_keys.
Qed.

Lemma init_settings_keeps_key_order_witness :
  exists volume' d',
    init_settings edited_volume = Ok volume'
    /\ settings_json volume' = File (Json (JObject d'))
    /\ keys d' = [py "foo"; py "run_command"].
Proof.
  destruct (init_settings_keeps_key_order edited_volume _ _
              eq_refl eq_refl) as (d' & Hd' & Hkeys).
  eexists _, d'. split; [reflexivity|]. split; [exact Hd'|]. exact Hkeys.
Defined.

(** X2. [init_settings] completes exactly when no directory sits in the
    place of settings.json and the document it is about to write (the
    prior object, or the empty one, with [run_command] forced) has no
    string that UTF-8 cannot encode. *)
Theorem init_settings_returns_iff volume :
  returns (init_settings volume) <->
  settings_json volume <> Directory
  /\ utf8_encodable
       (JObject (forced (prior_settings (settings_json volume)))) = true.
Proof.
  rewrite init_settings_spec. split.
  - intros [v H]. destruct (settings_json volume) as [| |c];
      [|discriminate H|]; cbv zeta in H;
      (destruct (utf8_encodable _) eqn:E; [|discriminate H]);
      (split; [discriminate | reflexivity]).
  - intros [Hdir Henc].
    destruct (settings_json volume) as [| |c]; [|done|];
      cbv zeta; rewrite Henc; eexists; reflexivity.
Qed.

(** X3. [init_settings] is idempotent: run again on the volume it left, it
    completes and leaves that volume. *)
Theorem init_settings_idempotent volume volume' :
  init_settings volume = Ok volume' -> init_settings volume' = Ok volume'.
Proof.
  intros H. pose proof (init_settings_fixed _ _ (db_file volume') H) as F.
  destruct volume'; exact F.
Qed.

Lemma init_settings_idempotent_witness :
  exists volume',
    init_settings edited_volume = Ok volume'
    /\ volume' <> edited_volume
    /\ init_settings volume' = Ok volume'.
Proof.
  eexists. split; [reflexivity|]. split; [discriminate|].
  apply (init_settings_idempotent edited_volume). reflexivity.
Defined.

(** X4. When settings.json already is an object that maps [run_command] to
    the string 7 and that UTF-8 can encode, [init_settings] completes and
    leaves the volume as it was. *)
Theorem init_settings_settled volume d :
  settings_json volume = File (Json (JObject d)) ->
  dict_get (py "run_command") d = Some (JString (py "7")) ->
  utf8_encodable (JObject d) = true ->
  init_settings volume = Ok volume.
Proof.
  intros Hd Hget Henc. rewrite init_settings_spec, Hd. cbv zeta.
  unfold forced; simpl prior_settings. rewrite (dict_set_same _ _ _ Hget).
  rewrite Henc, <- Hd. destruct volume; reflexivity.
Qed.

Lemma init_settings_settled_witness :
  init_settings settled_volume = Ok settled_volume.
Proof.
  apply (init_settings_settled settled_volume
           [(py "run_command", JString (py "7"));
            (py "foo", JString (py "bar"))]); reflexivity.
Defined.

(** X5. [init_settings] leaves the database file as it was. *)
Theorem init_settings_leaves_database volume volume' :
  init_settings volume = Ok volume' -> db_file volume' = db_file volume.
Proof. intros H. apply init_settings_Ok in H as [_ ->]. reflexivity. Qed.

Lemma init_settings_leaves_database_witness :
  exists volume',
    init_settings edited_volume = Ok volume'
    /\ db_file volume' = db_file edited_volume.
Proof.
  eexists. split; [reflexivity|].
  apply (init_settings_leaves_database edited_volume). reflexivity.
Defined.

End SettingsMore.

(** ** init_database on its own *)

Section DatabaseMore.

Import DockerEntry.


Lemma seed_config_other rows name :
  name <> py "Record" -> name <> py "Logger" -> name <> py "Disclaimer" ->
  seed_config rows !! name = rows !! name.
Proof.
  intros HR HL HD. unfold seed_config.
  rewrite lookup_insert_ne by congruence.
  rewrite !lookup_if_absent, !decide_False by congruence. reflexivity.
Qed.




(** X7. [init_database] makes the four tables exist and leaves alone what
    it does not seed: settings.json, the ids of download_data and the rows
    of mapping_data are after it what they were (none, for a table it had
    to create). *)
Theorem init_database_leaves_other_tables volume volume' :
  init_database volume = Ok volume' ->
  has_tables volume' = true
  /\ settings_json volume' = settings_json volume
  /\ download_ids volume' = download_ids volume
  /\ mapping_rows volume' = mapping_rows volume.
Proof.
  intros H. apply init_database_Ok in H as (conn & Hconn & ->).
  split; [reflexivity|]. split; [reflexivity|].
  unfold download_ids, mapping_rows; simpl.
  destruct (db_file volume) as [| |[|d]]; simpl in Hconn;
    try discriminate Hconn; injection Hconn as <-; split; reflexivity.
Qed.

Lemma init_database_leaves_other_tables_witness :
  exists volume',
    init_database edited_volume = Ok volume'
    /\ has_tables volume' = true
    /\ download_ids volume' = {[ py "7412" ]}.
Proof.
  eexists. split; [vm_compute; reflexivity|].
  destruct (init_database_leaves_other_tables edited_volume _
              ltac:(vm_compute; reflexivity)) as (Ht & _ & Hd & _).
  split; [exact Ht|]. rewrite Hd. reflexivity.
Defined.

(** X8. [init_database] keeps the CHECK constraint of config_data: when
    every value in the table was 0 or 1 before, every value is 0 or 1
    after. *)
Theorem init_database_keeps_check volume volume' :
  (forall name value,
     config_row name volume = Some value -> value = 0 \/ value = 1) ->
  init_database volume = Ok volume' ->
  forall name value,
    config_row name volume' = Some value -> value = 0 \/ value = 1.
Proof.
  intros Hvalid H name value.
  apply init_database_Ok in H as (conn & Hconn & ->).
  unfold config_row at 1; simpl.
  pose proof (connect_config_row _ _ name Hconn) as Hrow.
  destruct (decide (name = py "Disclaimer")) as [->|HD].
  { rewrite seed_config_forced. intros [= <-]. right; reflexivity. }
  destruct (decide (name = py "Record")) as [->|HR].
  { rewrite seed_config_record, Hrow.
    destruct (config_row (py "Record") volume) as [v|] eqn:E; simpl;
      intros [= <-]; [exact (Hvalid _ _ E) | right; reflexivity]. }
  destruct (decide (name = py "Logger")) as [->|HL].
  { rewrite seed_config_logger, Hrow.
    destruct (config_row (py "Logger") volume) as [v|] eqn:E; simpl;
      intros [= <-]; [exact (Hvalid _ _ E) | left; reflexivity]. }
  rewrite seed_config_other, Hrow by assumption. apply Hvalid.
Qed.

Lemma init_database_keeps_check_witness :
  config_row (py "Logger") edited_volume = Some 1
  /\ exists volume',
       init_database edited_volume = Ok volume'
       /\ forall name value,
            config_row name volume' = Some value -> value = 0 \/ value = 1.
Proof.
  split; [vm_compute; reflexivity|].
  eexists. split; [vm_compute; reflexivity|].
  apply (init_database_keeps_check edited_volume);
    [|vm_compute; reflexivity].
  intros name value. unfold config_row, edited_volume; simpl.
  rewrite lookup_insert. case_decide; [intros [= <-]; by left|].
  rewrite lookup_insert. case_decide; [intros [= <-]; by right|].
  rewrite lookup_singleton. case_decide; [intros [= <-]; by left|].
  discriminate.
Defined.

(** X9. [init_database] is idempotent: run again on the volume it left, it
    completes and leaves that volume. *)
Theorem init_database_idempotent volume volume' :
  init_database volume = Ok volume' -> init_database volume' = Ok volume'.
Proof.
  intros H. pose proof (init_database_fixed _ _ (settings_json volume') H) as F.
  destruct volume'; exact F.
Qed.

Lemma init_database_idempotent_witness :
  exists volume',
    init_database edited_volume = Ok volume'
    /\ volume' <> edited_volume
    /\ init_database volume' = Ok volume'.
Proof.
  eexists. split; [vm_compute; reflexivity|].
  split; [intros H; vm_compute in H; discriminate H|].
  apply (init_database_idempotent edited_volume). vm_compute; reflexivity.
Defined.

(** X10. [init_database] does not recover from a bad database path: it
    raises OperationalError when the path names a directory and
    DatabaseError when it names a file that is no database, so it completes
    only when the path names neither. *)
Theorem init_database_bad_path volume :
  (db_file volume = Directory ->
   init_database volume = Raise OperationalError)
  /\ (db_file volume = File NotADatabase ->
      init_database volume = Raise DatabaseError)
  /\ (returns (init_database volume) ->
      db_file volume <> Directory /\ db_file volume <> File NotADatabase).
Proof.
  unfold init_database.
  destruct (db_file volume) as [| |[|d]]; simpl;
    (split; [intros H; try discriminate H; reflexivity|]);
    (split; [intros H; try discriminate H; reflexivity|]);
    intros [v H]; try discriminate H; split; discriminate.
Qed.

Lemma init_database_bad_path_witness :
  init_database {| settings_json := Missing; db_file := Directory |}
  = Raise OperationalError
  /\ init_database {| settings_json := Missing;
                      db_file := File NotADatabase |}
     = Raise DatabaseError.
Proof.
  split.
  - apply (init_database_bad_path
             {| settings_json := Missing; db_file := Directory |}).
    reflexivity.
  - apply (init_database_bad_path
             {| settings_json := Missing; db_file := File NotADatabase |}).
    reflexivity.
Defined.

End DatabaseMore.

(** ** How the steps compose *)

Section StepsMore.

Import DockerEntry.

Lemma init_settings_Ok_file volume volume' :
  init_settings volume = Ok volume' -> settings_json volume <> Directory.
Proof.
  rewrite init_settings_spec. intros H E. rewrite E in H. discriminate H.
Qed.

(** X11. The two initialisers work on different files, so their order does
    not matter: when [init_settings] and then [init_database] complete,
    [init_database] and then [init_settings] complete too and leave the
    same volume. *)
Theorem init_steps_commute volume v1 v2 :
  init_settings volume = Ok v1 ->
  init_database v1 = Ok v2 ->
  exists v1',
    init_database volume = Ok v1' /\ init_settings v1' = Ok v2.
Proof.
  intros Hs Hd.
  pose proof (init_settings_Ok_file _ _ Hs) as Hfile.
  apply init_settings_Ok in Hs as [Henc ->]. cbv zeta in Henc.
  apply init_database_Ok in Hd as (conn & Hconn & ->).
  cbn [db_file settings_json] in *.
  eexists. split.
  - rewrite init_database_spec, Hconn. reflexivity.
  - rewrite init_settings_spec. cbn [settings_json db_file].
    destruct (settings_json volume) as [| |c]; [|contradiction|];
      cbv zeta; rewrite Henc; reflexivity.
Qed.

Lemma init_steps_commute_witness :
  exists v1 v2 v1',
    init_settings edited_volume = Ok v1
    /\ init_database v1 = Ok v2
    /\ init_database edited_volume = Ok v1'
    /\ init_settings v1' = Ok v2.
Proof.
  destruct (init_steps_commute edited_volume _ _
              ltac:(vm_compute; reflexivity) ltac:(vm_compute; reflexivity))
    as (v1' & H1 & H2).
  eexists _, _, v1'.
  split; [vm_compute; reflexivity|]. split; [vm_compute; reflexivity|].
  split; [exact H1 | exact H2].
Defined.

(** X12. [main] asks for the new process image only after the three steps:
    it returns exactly when the bootstrap completes and the PATH resolves
    python, and an exception of the bootstrap is the exception of
    [main]. *)
Theorem main_returns_iff on_path fs :
  (returns (main on_path fs) <->
   returns (bootstrap fs) /\ on_path (py "python") = true)
  /\ (forall e, bootstrap fs = Raise e -> main on_path fs = Raise e).
Proof.
  rewrite main_bootstrap. unfold execvp.
  destruct (bootstrap fs) as [fs'|e0]; cbn [bind].
  - destruct (on_path (py "python")); cbn [bind]; split.
    + split; [intros _; split; [eexists|]; reflexivity
             | intros _; eexists; reflexivity].
    + intros e H; discriminate H.
    + split; [intros [x H]; discriminate H | intros [_ H]; discriminate H].
    + intros e H; discriminate H.
  - split.
    + split; [intros [x H]; discriminate H | intros [[x H] _]; discriminate H].
    + intros e [= ->]. reflexivity.
Qed.

End StepsMore.

(** ** The probe on its own *)

Section ProbeMore.

Import HealthCheck.

(** Replaces the literals of the source by their code points. *)
Ltac py_lit :=
  repeat match goal with
    | |- context [py ?s] =>
        let v := eval vm_compute in (py s) in change (py s) with v
    end.

Lemma Request_raises url hdrs e : Request url hdrs = Raise e -> e = ValueError.
Proof.
  unfold Request. destruct (splittag (unwrap url)) as [path tag].
  destruct (fst (splittype path)); [|by intros [= <-]].
  unfold urlsplit_check. destruct (_ || _); simpl; [by intros [= <-] | done].
Qed.

(** X13. No exception of the network leaves [check]: when [check] raises,
    the exception is the ValueError of the request constructor, raised
    before the [try]. *)
Theorem check_raises_only_ValueError urlopen url timeout e :
  check urlopen url timeout = Raise e ->
  e = ValueError /\ Request url probe_headers = Raise ValueError.
Proof.
  unfold check, probe_headers.
  destruct (Request url _) as [req|e'] eqn:E; cbn [bind].
  - destruct (urlopen req timeout); discriminate.
  - intros [= ->]. pose proof (Request_raises _ _ _ E) as ->.
    split; reflexivity.
Qed.

Lemma check_raises_only_ValueError_witness :
  Request (py "localhost/health") probe_headers = Raise ValueError.
Proof.
  apply (check_raises_only_ValueError healthy_network
           (py "localhost/health") (FDec (2 # 1)) ValueError).
  reflexivity.
Defined.

(** X14. Once the request object exists, [check] returns, and what it
    returns is 0 or 1: 0 exactly when the network answers with status 200,
    1 for every other status and for every exception of [urlopen]. *)
Theorem check_status_contract urlopen url timeout req :
  Request url probe_headers = Ok req ->
  exists code,
    check urlopen url timeout = Ok code
    /\ (code = 0 \/ code = 1)
    /\ (code = 0 <->
        exists resp, urlopen req timeout = Ok resp /\ status resp = 200).
Proof.
  intros H. rewrite (check_after_request _ _ _ _ H).
  destruct (urlopen req timeout) as [resp|e].
  - destruct (Z.eqb_spec (status resp) 200) as [E|E]; eexists;
      (split; [reflexivity|]).
    + split; [by left|]. split; [eauto | reflexivity].
    + split; [by right|]. split; [discriminate|].
      intros (resp' & [= <-] & E'). contradiction.
  - eexists. split; [reflexivity|]. split; [by right|].
    split; [discriminate | intros (resp' & [=] & _)].
Qed.

Lemma check_status_contract_witness :
  check healthy_network (py "http://localhost:5555/health") (FDec (2 # 1))
  = Ok 0.
Proof.
  edestruct (check_status_contract healthy_network
               (py "http://localhost:5555/health") (FDec (2 # 1)))
    as (code & E & _ & Hiff); [vm_compute; reflexivity|].
  rewrite E. f_equal. apply Hiff. eexists. split; reflexivity.
Defined.

(** *** The URL [main] builds *)

Lemma rstrip_with_last drop (s : str) c :
  drop c = false -> rstrip_with drop (s ++ [c]) = s ++ [c].
Proof.
  intros H. unfold rstrip_with. rewrite rev_app_distr. simpl. rewrite H.
  simpl. rewrite rev_involutive. reflexivity.
Qed.

Lemma unwrap_plain (c : N) (body : str) (z : N) :
  isspace c = false -> isspace z = false -> c <> 60%N -> c <> 85%N ->
  unwrap (c :: body ++ [z]) = c :: body ++ [z].
Proof.
  intros Hc Hz H60 H85. unfold unwrap, strip, strip_with.
  replace (c :: body ++ [z]) with ((c :: body) ++ [z]) by reflexivity.
  rewrite (rstrip_with_last _ _ _ Hz). cbn [app lstrip_with]. rewrite Hc.
  destruct (decide (take 1 _ = _ /\ _)) as [[H _]|_].
  { exfalso. revert H. py_lit. cbn. congruence. }
  destruct (decide (take 4 _ = _)) as [H|_]; [|reflexivity].
  exfalso. revert H. py_lit.
  destruct body as [|? [|? [|? ?]]]; cbn; congruence.
Qed.

Lemma rpartition_Some sep (s h t : str) :
  rpartition sep s = Some (h, t) -> s = h ++ sep :: t.
Proof.
  revert h t. induction s as [|c s IH]; intros h t; simpl; [discriminate|].
  destruct (rpartition sep s) as [[h' t']|].
  - intros [= <- <-]. rewrite (IH _ _ eq_refl). reflexivity.
  - destruct (N.eqb_spec c sep) as [->|]; [|discriminate].
    intros [= <- <-]. reflexivity.
Qed.

Lemma contains_app c (a b : str) :
  contains c (a ++ b) = contains c a || contains c b.
Proof. apply existsb_app. Qed.

Lemma contains_filter c f (s : str) :
  contains c s = false -> contains c (List.filter f s) = false.
Proof.
  induction s as [|x s IH]; simpl; [reflexivity|].
  intros H. apply orb_false_elim in H as [Hx Hs].
  destruct (f x); simpl; [rewrite Hx|]; auto.
Qed.

Lemma contains_before_first c stop (s : str) :
  contains c s = false -> contains c (before_first stop s) = false.
Proof.
  induction s as [|x s IH]; simpl; [reflexivity|].
  intros H. apply orb_false_elim in H as [Hx Hs].
  destruct (stop x); simpl; [reflexivity|]. rewrite Hx. auto.
Qed.

(** The host part of a URL that starts with http://localhost: has a
    bracket only when what follows has one. *)
Lemma urlsplit_check_http (y : str) :
  contains 91 y = false -> contains 93 y = false ->
  urlsplit_check (py "http://localhost:" ++ y) = Ok tt.
Proof.
  intros H91 H93. unfold urlsplit_check, netloc_of. py_lit.
  cbn [app lstrip_with N.leb N.compare Pos.compare Pos.compare_cont].
  cbn [List.filter N.eqb Pos.eqb orb negb partition].
  cbn [is_ascii_alpha forallb is_scheme_char is_digit N.leb N.compare
       Pos.compare Pos.compare_cont N.eqb Pos.eqb andb orb before_first].
  cbn [contains existsb N.eqb Pos.eqb orb].
  pose proof (contains_before_first 91
    (fun c => (c =? 47)%N || (c =? 63)%N || (c =? 35)%N) _
    (contains_filter 91
       (fun c => negb ((c =? 9)%N || (c =? 13)%N || (c =? 10)%N)) _ H91))
    as E91.
  pose proof (contains_before_first 93
    (fun c => (c =? 47)%N || (c =? 63)%N || (c =? 35)%N) _
    (contains_filter 93
       (fun c => negb ((c =? 9)%N || (c =? 13)%N || (c =? 10)%N)) _ H93))
    as E93.
  unfold contains in E91, E93. rewrite E91, E93. reflexivity.
Qed.

Lemma rpartition_app sep (pre y : str) :
  contains sep pre = false ->
  rpartition sep (pre ++ y) =
  match rpartition sep y with
  | Some (h, t) => Some (pre ++ h, t)
  | None => None
  end.
Proof.
  induction pre as [|c pre IH]; simpl.
  - intros _. destruct (rpartition sep y) as [[h t]|]; reflexivity.
  - intros H. apply orb_false_elim in H as [Hc Hpre]. rewrite (IH Hpre).
    destruct (rpartition sep y) as [[h t]|]; [reflexivity|].
    rewrite N.eqb_sym, Hc. reflexivity.
Qed.

Lemma unwrap_http_localhost (port : str) :
  unwrap (py "http://localhost:" ++ port ++ py "/health")
  = py "http://localhost:" ++ port ++ py "/health".
Proof.
  py_lit.
  replace ([104; 116; 116; 112; 58; 47; 47; 108; 111; 99; 97; 108; 104;
            111; 115; 116; 58]%N ++ port ++ [47; 104; 101; 97; 108; 116; 104]%N)
    with (104%N
          :: ([116; 116; 112; 58; 47; 47; 108; 111; 99; 97; 108; 104; 111;
               115; 116; 58]%N ++ port ++ [47; 104; 101; 97; 108; 116]%N)
          ++ [104%N])
    by (cbn [app]; rewrite <- !app_assoc; reflexivity).
  apply unwrap_plain; [reflexivity | reflexivity | discriminate | discriminate].
Qed.

(** The constructor accepts the URL of the probe for every port without a
    square bracket. *)
Lemma Request_http_localhost (port : str) hdrs :
  contains 91 port = false -> contains 93 port = false ->
  returns (Request (py "http://localhost:" ++ port ++ py "/health") hdrs).
Proof.
  intros H91 H93. unfold Request. rewrite unwrap_http_localhost.
  set (y := port ++ py "/health").
  assert (Hy91 : contains 91 y = false)
    by (unfold y; rewrite contains_app, H91; reflexivity).
  assert (Hy93 : contains 93 y = false)
    by (unfold y; rewrite contains_app, H93; reflexivity).
  unfold splittag. rewrite rpartition_app by reflexivity.
  destruct (rpartition 35 y) as [[h t]|] eqn:E.
  - apply rpartition_Some in E.
    assert (Hh91 : contains 91 h = false /\ contains 91 t = false).
    { rewrite E, contains_app in Hy91. simpl in Hy91.
      apply orb_false_elim in Hy91 as [? ?]. split; assumption. }
    assert (Hh93 : contains 93 h = false /\ contains 93 t = false).
    { rewrite E, contains_app in Hy93. simpl in Hy93.
      apply orb_false_elim in Hy93 as [? ?]. split; assumption. }
    change (fst (splittype (py "http://localhost:" ++ h)))
      with (Some (py "http")).
    destruct t as [|c tag]; cbn [full_url].
    + rewrite (urlsplit_check_http h) by tauto. eexists; reflexivity.
    + rewrite <- app_assoc.
      rewrite (urlsplit_check_http (h ++ py "#" ++ c :: tag)).
      * eexists; reflexivity.
      * rewrite contains_app. destruct Hh91 as [-> Ht]. exact Ht.
      * rewrite contains_app. destruct Hh93 as [-> Ht]. exact Ht.
  - change (fst (splittype (py "http://localhost:" ++ y)))
      with (Some (py "http")).
    cbn [full_url]. rewrite (urlsplit_check_http y) by assumption.
    eexists; reflexivity.
Qed.

Lemma plain_port_no_bracket port :
  plain_port port = true ->
  contains 91 port = false /\ contains 93 port = false.
Proof.
  unfold plain_port, contains.
  induction port as [|c port IH]; cbn [forallb existsb].
  - intros _. split; reflexivity.
  - intros H. apply andb_prop in H as [Hc Hport].
    apply andb_prop in Hc as [Hc H93]. apply andb_prop in Hc as [_ H91].
    destruct (IH Hport) as [-> ->].
    rewrite (N.eqb_sym 91 c), (N.eqb_sym 93 c).
    apply negb_true_iff in H91, H93. rewrite H91, H93. split; reflexivity.
Qed.

(** X15. For every environment whose PORT, when set, is plain ASCII without
    a square bracket, and for every network, [main] builds a URL the
    request constructor accepts and exits with the status of [check]: 0
    when the answer has status 200, 1 for any other answer and for any
    exception of the network. *)
Theorem probe_main_exit_status (environ : gmap str str) urlopen :
  (forall port, environ !! py "PORT" = Some port -> plain_port port = true) ->
  exists req timeout,
    Request (probe_url environ) probe_headers = Ok req
    /\ timeout_of environ = Ok timeout
    /\ main environ urlopen =
       Ok (match urlopen req timeout with
           | Ok resp => if status resp =? 200 then 0 else 1
           | Raise _ => 1
           end).
Proof.
  intros Hport.
  assert (Hplain : plain_port (format_value (port_of environ)) = true).
  { unfold port_of, getenv.
    destruct (environ !! py "PORT") as [port|] eqn:E; simpl;
      [exact (Hport port eq_refl) | reflexivity]. }
  apply plain_port_no_bracket in Hplain as [H91 H93].
  destruct (Request_http_localhost _ probe_headers H91 H93) as [req Hreq].
  destruct (timeout_of_returns environ) as [timeout Ht].
  exists req, timeout. split; [exact Hreq|]. split; [exact Ht|].
  unfold main. rewrite Ht. cbn [bind].
  rewrite (check_after_request urlopen _ timeout req Hreq). reflexivity.
Qed.

Lemma probe_main_exit_status_witness :
  main port_and_word_timeout_environ healthy_network = Ok 0.
Proof.
  destruct (probe_main_exit_status port_and_word_timeout_environ
              healthy_network) as (req & timeout & _ & _ & E).
  - intros port H. vm_compute in H. injection H as <-. reflexivity.
  - rewrite E. reflexivity.
Defined.

(** X16. A HEALTHCHECK_TIMEOUT that [float] rejects counts as none: [main]
    does with it what it does without the variable. *)
Theorem probe_main_ignores_bad_timeout (environ : gmap str str) urlopen s e :
  environ !! py "HEALTHCHECK_TIMEOUT" = Some s ->
  float_of_str s = Raise e ->
  main environ urlopen
  = main (delete (py "HEALTHCHECK_TIMEOUT") environ) urlopen.
Proof.
  intros Hs He. unfold main, port_of, timeout_of, getenv.
  rewrite lookup_delete_eq.
  rewrite lookup_delete_ne by (intros H; vm_compute in H; discriminate H).
  rewrite Hs. cbn [py_float]. rewrite He. reflexivity.
Qed.

Lemma probe_main_ignores_bad_timeout_witness :
  main port_and_word_timeout_environ healthy_network
  = main (delete (py "HEALTHCHECK_TIMEOUT") port_and_word_timeout_environ)
      healthy_network.
Proof.
  apply (probe_main_ignores_bad_timeout port_and_word_timeout_environ
           healthy_network (py "soon") ValueError);
    vm_compute; reflexivity.
Defined.

End ProbeMore.

(** ** The port of the server *)

Section ServerMore.




End ServerMore.

(** ** What the service finds at the hand-off *)

Section HandoffMore.

Import DockerEntry.

(** X18. Whenever [main] hands the process over, /app/Volume is a
    directory whose settings.json is an object with [run_command] forced,
    and whose database has the four tables, the Disclaimer row at 1 and
    the Language row at zh_CN. *)
Theorem main_handoff_state on_path fs fs' image :
  main on_path fs = Ok (fs', image) ->
  exists volume,
    fs' = VolumeDir volume
    /\ setting (py "run_command") volume = Some (JString (py "7"))
    /\ has_tables volume = true
    /\ config_row (py "Disclaimer") volume = Some 1
    /\ option_row (py "Language") volume = Some (py "zh_CN").
Proof.
  unfold main. intros H.
  bind_inv H. rename a into v0. bind_inv H. rename a into v1.
  bind_inv H. rename a into v2. bind_inv H. injection H as <- _.
  exists v2. split; [reflexivity|].
  apply init_settings_Ok in Hstep0 as [_ ->].
  apply init_database_Ok in Hstep1 as (conn & _ & ->).
  unfold setting, has_tables, config_row, option_row; simpl.
  split; [apply dict_get_set_eq|]. split; [reflexivity|].
  split; [apply seed_config_forced | apply seed_option_forced].
Qed.

Lemma main_handoff_state_witness :
  exists fs' image volume,
    main everything_on_path (VolumeDir edited_volume) = Ok (fs', image)
    /\ fs' = VolumeDir volume
    /\ setting (py "run_command") volume = Some (JString (py "7"))
    /\ config_row (py "Disclaimer") volume = Some 1.
Proof.
  destruct (main_handoff_state everything_on_path (VolumeDir edited_volume)
              _ _ ltac:(vm_compute; reflexivity))
    as (volume & Hfs & Hrun & _ & Hrow & _).
  eexists _, _, volume. split; [vm_compute; reflexivity|].
  split; [exact Hfs|]. split; [exact Hrun | exact Hrow].
Defined.

End HandoffMore.

(** ** Runs that raise *)

Section Crash.

Import DockerEntry.

(** The two embeddings agree on how a call ends and, when it returns, on
    the volume it leaves. *)
Lemma init_settings_on_disk_agrees volume :
  init_settings volume =
  match init_settings_on_disk volume with
  | (volume', Ok _) => Ok volume'
  | (_, Raise e) => Raise e
  end.
Proof.
  unfold init_settings, init_settings_on_disk.
  destruct volume as [p db]; cbn [settings_json db_file].
  destruct p as [| |[| |v]]; simpl; try reflexivity;
    try (destruct v; simpl; try reflexivity);
    destruct (json_dump _); reflexivity.
Qed.

Lemma seed_statements_Ok cur :
  seed_statements (executescript cur) = Ok (seeded cur).
Proof.
  unfold seed_statements, executescript, on_config_data, on_option_data.
  rewrite !create_table_default. cbn [config_data option_data].
  repeat first
    [ rewrite insert_or_ignore_Ok by reflexivity
    | rewrite insert_or_replace_Ok by reflexivity
    | progress cbn [bind config_data option_data download_data mapping_data] ].
  reflexivity.
Qed.

Lemma init_database_on_disk_agrees volume :
  init_database volume =
  match init_database_on_disk volume with
  | (volume', Ok _) => Ok volume'
  | (_, Raise e) => Raise e
  end.
Proof.
  rewrite init_database_spec. unfold init_database_on_disk.
  destruct (connect (db_file volume)) as [conn|e]; [|reflexivity].
  cbv zeta. rewrite seed_statements_Ok. reflexivity.
Qed.

Lemma bootstrap_on_disk_agrees fs :
  bootstrap fs =
  match bootstrap_on_disk fs with
  | (fs', Ok _) => Ok fs'
  | (_, Raise e) => Raise e
  end.
Proof.
  unfold bootstrap, bootstrap_on_disk.
  destruct (ensure_volume fs) as [v0|e]; [|reflexivity]. cbn [bind].
  rewrite init_settings_on_disk_agrees.
  destruct (init_settings_on_disk v0) as [v1 [[]|e]]; [|reflexivity].
  cbn [bind]. rewrite init_database_on_disk_agrees.
  destruct (init_database_on_disk v1) as [v2 [[]|e]]; reflexivity.
Qed.

(** C3, as stated, fails: the document of [noted_volume] parses as an
    object, the dump raises on its lone surrogate after the file has been
    emptied, and the key foo is gone from what is left. *)
Lemma init_settings_loses_keys_counterexample :
  ~ (forall k,
       k <> py "run_command" ->
       setting k (fst (init_settings_on_disk noted_volume))
       = setting k noted_volume).
Proof.
  intros H. specialize (H (py "foo")).
  assert (Hne : py "foo" <> py "run_command")
    by (intros E; vm_compute in E; discriminate E).
  specialize (H Hne). vm_compute in H. discriminate H.
Qed.

Example init_settings_on_disk_noted :
  init_settings_on_disk noted_volume
  = ({| settings_json := File NotJson; db_file := Missing |},
     Raise UnicodeEncodeError).
Proof. reflexivity. Qed.


Example bootstrap_on_disk_noted_once :
  bootstrap_on_disk (VolumeDir noted_volume)
  = (VolumeDir {| settings_json := File NotJson; db_file := Missing |},
     Raise UnicodeEncodeError).
Proof. reflexivity. Qed.

Example bootstrap_on_disk_noted_twice :
  exists volume,
    bootstrap_on_disk (fst (bootstrap_on_disk (VolumeDir noted_volume)))
    = (VolumeDir volume, Ok tt)
    /\ settings_json volume
       = File (Json (JObject [(py "run_command", JString (py "7"))]))
    /\ has_tables volume = true.
Proof.
  eexists. split; [vm_compute; reflexivity|]. split; reflexivity.
Qed.

End Crash.
